(** * minizinc-mcp: the solve-invocation and result-normalization core

    A shallow embedding of [solve_constraint_core] (src/main.py) and the
    properties of its result record.

    The constraint engine (the [minizinc] package) is not part of the
    repository: it enters as a record of operations, each of which may
    raise.  Python values are a small universe of the shapes the core can
    tell apart; a Python [float] is an exact rational (rounding is outside
    the model, overflow is not) and a [datetime.timedelta] an integer number
    of microseconds.  A raised object records whether it is an instance of
    [Exception], the class the handler of [solve_constraint_core] names:
    what is not is not caught and leaves the call. *)

From Stdlib Require Import ZArith QArith String List.
From stdpp Require Import base option list strings pretty gmap.
Import ListNotations.

Local Open Scope string_scope.
Local Open Scope list_scope.
Local Open Scope Z_scope.

(** ** Raised objects and the error monad *)

(** A raised object: its class, what [str(e)] gives, and whether
    [isinstance(e, Exception)] holds ([asyncio.CancelledError],
    [KeyboardInterrupt] and [SystemExit] derive from [BaseException]
    only). *)
Record PyExc := BaseException {
  exc_class : string;
  exc_str : string;
  is_Exception : bool
}.

(** An instance of [Exception]. *)
Definition mkExc (class message : string) : PyExc :=
  BaseException class message true.

Inductive Exc (A : Type) : Type :=
| Return (a : A)
| Raise (e : PyExc).
Arguments Return {A} a.
Arguments Raise {A} e.

Definition bind {A B : Type} (c : Exc A) (k : A -> Exc B) : Exc B :=
  match c with
  | Return a => k a
  | Raise e => Raise e
  end.

Declare Scope exc_scope.
Delimit Scope exc_scope with exc.
Notation "'try!' x := c 'in' k" := (bind c (fun x => k))
  (at level 10, x name, c at level 100, k at level 200) : exc_scope.
Local Open Scope exc_scope.

(** ** Python values *)

Record timedelta := Timedelta { total_microseconds : Z }.

Definition OverflowError (msg : string) : PyExc := mkExc "OverflowError" msg.

(** [datetime.timedelta(seconds=s)]: the count of days, [s // 86400], must
    lie within 999999999 of zero (and, before that check, fit a C int). *)
Definition timedelta_of_seconds (s : Z) : Exc timedelta :=
  let days := s / 86400 in
  if (-999999999 <=? days) && (days <=? 999999999)
  then Return (Timedelta (s * 1000000))
  else if (-2147483648 <=? days) && (days <=? 2147483647)
  then Raise (OverflowError
                ("days=" +:+ pretty days +:+ "; must have magnitude <= 999999999"))
  else Raise (OverflowError "Python int too large to convert to C int").

(** [d.total_seconds()] *)
Definition total_seconds (d : timedelta) : Q := total_microseconds d # 1000000.

(** A record [PyObject fields attributes] is seen twice by the core:
    [fields] is its [__dict__], [attributes] what [hasattr] and attribute
    access find on it (instance fields, class attributes, properties). *)
#[warnings="-register-all"]
Inductive PyVal :=
| PyNone
| PyBool (b : bool)
| PyInt (n : Z)
| PyFloat (x : Q)
| PyList (items : list PyVal)
| PyTimedelta (d : timedelta)
| PyObject (fields attributes : gmap string PyVal).

(** An instance whose attributes are exactly its fields. *)
Definition plain_record (fields : gmap string PyVal) : PyVal :=
  PyObject fields fields.

Definition type_name (v : PyVal) : string :=
  match v with
  | PyNone => "NoneType"
  | PyBool _ => "bool"
  | PyInt _ => "int"
  | PyFloat _ => "float"
  | PyList _ => "list"
  | PyTimedelta _ => "datetime.timedelta"
  | PyObject _ _ => "Solution"
  end.

(** [bool(v)] *)
Definition py_bool (v : PyVal) : bool :=
  match v with
  | PyNone => false
  | PyBool b => b
  | PyInt n => negb (n =? 0)
  | PyFloat x => negb (Qeq_bool x 0)
  | PyList items => negb (Nat.eqb (length items) 0)
  | PyTimedelta d => negb (total_microseconds d =? 0)
  | PyObject _ _ => true
  end.

Definition AttributeError (v : PyVal) (name : string) : PyExc :=
  mkExc "AttributeError"
    ("'" +:+ type_name v +:+ "' object has no attribute '" +:+ name +:+ "'").

Definition TypeError (msg : string) : PyExc := mkExc "TypeError" msg.

(** [v.__dict__] *)
Definition get_dict (v : PyVal) : Exc (gmap string PyVal) :=
  match v with
  | PyObject fields _ => Return fields
  | _ => Raise (AttributeError v "__dict__")
  end.

(** [hasattr(v, name)] for the two names the core asks about. *)
Definition hasattr (v : PyVal) (name : string) : bool :=
  match v with
  | PyObject _ attributes => bool_decide (is_Some (attributes !! name))
  | PyTimedelta _ => String.eqb name "total_seconds"
  | _ => false
  end.

(** [v.name if hasattr(v, name) else None] on a record. *)
Definition getattr_or_None (v : PyVal) (name : string) : PyVal :=
  match v with
  | PyObject _ attributes => default PyNone (attributes !! name)
  | _ => PyNone
  end.

(** An [int] converts to a [float] when it rounds to a finite one: its
    magnitude must stay below [2^1024 - 2^970], half an ulp above the
    largest float. *)
Definition float_overflows (n : Z) : bool :=
  2 ^ 1024 - 2 ^ 970 <=? Z.abs n.

(** [float(v)] *)
Definition py_float (v : PyVal) : Exc Q :=
  match v with
  | PyInt n =>
      if float_overflows n
      then Raise (OverflowError "int too large to convert to float")
      else Return (inject_Z n)
  | PyFloat x => Return x
  | PyBool b => Return (if b then 1%Q else 0%Q)
  | _ => Raise (TypeError
           ("float() argument must be a string or a real number, not '"
              +:+ type_name v +:+ "'"))
  end.

(** [v.total_seconds()], asked only when [hasattr(v, 'total_seconds')]:
    a [timedelta] answers; a record holding an attribute of that name holds
    data, and calling data raises. *)
Definition call_total_seconds (v : PyVal) : Exc Q :=
  match v with
  | PyTimedelta d => Return (total_seconds d)
  | PyObject _ attributes =>
      match attributes !! "total_seconds" with
      | Some f => Raise (TypeError ("'" +:+ type_name f +:+ "' object is not callable"))
      | None => Raise (AttributeError v "total_seconds")
      end
  | _ => Raise (AttributeError v "total_seconds")
  end.

(** ** The data model of src/main.py *)

Record ConstraintModel := {
  model : string;
  data : option (list (string * PyVal));
  solver : string;
  all_solutions : bool;
  timeout : option Z
}.

Record Solution := {
  variables : gmap string PyVal;
  objective : option Q;
  is_optimal : bool
}.

Record SolveResult := {
  solutions : list Solution;
  status : string;
  solve_time : Q;
  num_solutions : Z;
  error : option string
}.

(** ** The engine, as the core sees it *)

(** Modelled from the spec: the engine's status enumeration
    ([minizinc.Status], which is not under src/).  Section 4.2 names
    SATISFIED, ALL_SOLUTIONS, OPTIMAL_SOLUTION, UNSATISFIABLE, UNKNOWN and
    ERROR; UNBOUNDED is the engine's member outside that set.  The code
    names three members and reaches the others only through [str]. *)
Inductive Status :=
| ERROR
| UNKNOWN
| UNBOUNDED
| UNSATISFIABLE
| SATISFIED
| ALL_SOLUTIONS
| OPTIMAL_SOLUTION.

(** [a == b] on statuses *)
Definition status_eqb (a b : Status) : bool :=
  match a, b with
  | ERROR, ERROR | UNKNOWN, UNKNOWN | UNBOUNDED, UNBOUNDED
  | UNSATISFIABLE, UNSATISFIABLE | SATISFIED, SATISFIED
  | ALL_SOLUTIONS, ALL_SOLUTIONS | OPTIMAL_SOLUTION, OPTIMAL_SOLUTION => true
  | _, _ => false
  end.

(** Modelled from the spec: [str(status)] is the member's literal name
    (section 4.2: "its literal representation"). *)
Definition str (s : Status) : string :=
  match s with
  | ERROR => "ERROR"
  | UNKNOWN => "UNKNOWN"
  | UNBOUNDED => "UNBOUNDED"
  | UNSATISFIABLE => "UNSATISFIABLE"
  | SATISFIED => "SATISFIED"
  | ALL_SOLUTIONS => "ALL_SOLUTIONS"
  | OPTIMAL_SOLUTION => "OPTIMAL_SOLUTION"
  end.

(** What [solve_async] hands back, by the observations the core makes of
    it: its status, [bool(result)], what iterating it yields (and the
    failure that ends the iteration, if one does), [result.solution],
    [result.objective] and [result.statistics] (each [None] when
    [hasattr] says the attribute is missing). *)
Record Result := {
  result_status : Status;
  result_bool : bool;
  result_items : list PyVal;
  result_iter_raises : option PyExc;
  result_solution : PyVal;
  result_objective : option PyVal;
  result_statistics : option (gmap string PyVal)
}.

Record Engine := {
  SolverT : Type;
  ModelT : Type;
  InstanceT : Type;
  (** [minizinc.Solver.lookup(name)] *)
  lookup : string -> Exc SolverT;
  (** [minizinc.Model()] *)
  new_model : Exc ModelT;
  (** [model.add_string(code)] *)
  add_string : ModelT -> string -> Exc ModelT;
  (** [minizinc.Instance(solver, model)] *)
  new_instance : SolverT -> ModelT -> Exc InstanceT;
  (** [instance[key] = value] *)
  setitem : InstanceT -> string -> PyVal -> Exc InstanceT;
  (** [await instance.solve_async(all_solutions=b, time_limit=t)];
      [None] when the keyword is not passed. *)
  solve_async : InstanceT -> bool -> option timedelta -> Exc Result
}.

(** ** solve_constraint_core, block by block *)

(** [for key, value in problem.data.items(): instance[key] = value] *)
Fixpoint bind_data (E : Engine) (instance : InstanceT E)
    (items : list (string * PyVal)) : Exc (InstanceT E) :=
  match items with
  | [] => Return instance
  | (key, value) :: rest =>
      try! instance' := setitem E instance key value in
      bind_data E instance' rest
  end.

(** [if problem.data: ...]: [None] and the empty mapping are both falsy. *)
Definition add_data (E : Engine) (instance : InstanceT E)
    (problem : ConstraintModel) : Exc (InstanceT E) :=
  match data problem with
  | Some (item :: rest) => bind_data E instance (item :: rest)
  | Some [] => Return instance
  | None => Return instance
  end.

(** Lines 42-54: from the solver lookup to the instance with its data. *)
Definition prepare (E : Engine) (problem : ConstraintModel)
    : Exc (InstanceT E) :=
  try! solver_ := lookup E (solver problem) in
  try! model0 := new_model E in
  try! model_ := add_string E model0 (model problem) in
  try! instance := new_instance E solver_ model_ in
  add_data E instance problem.

(** [if problem.timeout: ... else: ...]: [None] and [0] are both falsy.
    The time limit is built before the engine is called. *)
Definition run_solve (E : Engine) (instance : InstanceT E)
    (problem : ConstraintModel) : Exc Result :=
  match timeout problem with
  | Some t =>
      if negb (t =? 0)
      then try! time_limit := timedelta_of_seconds t in
           solve_async E instance (all_solutions problem) (Some time_limit)
      else solve_async E instance (all_solutions problem) None
  | None => solve_async E instance (all_solutions problem) None
  end.

(** Lines 42-63: from the solver lookup to the awaited result. *)
Definition invoke (E : Engine) (problem : ConstraintModel) : Exc Result :=
  try! instance := prepare E problem in
  run_solve E instance problem.

(** The loop [for key in d: if not key.startswith('_'): sol_dict[key] = d[key]] *)
Definition sol_dict (d : gmap string PyVal) : gmap string PyVal :=
  filter (fun kv => String.prefix "_" kv.1 = false) d.

(** Lines 103-110: the solve time, in seconds. *)
Definition convert_solve_time (result : Result) : Exc Q :=
  match result_statistics result with
  | Some statistics =>
      match statistics !! "solveTime" with
      | Some solve_time_ =>
          if hasattr solve_time_ "total_seconds"
          then call_total_seconds solve_time_
          else py_float solve_time_
      | None => Return 0%Q
      end
  | None => Return 0%Q
  end.

(** The record built by the [except Exception as e] handler. *)
Definition error_result (e : PyExc) : SolveResult :=
  {| solutions := [];
     status := "ERROR";
     solve_time := 0%Q;
     num_solutions := 0;
     error := Some (exc_str e) |}.

(** [try: body except Exception as e: return SolveResult(...)]: what is
    raised and is not an [Exception] goes on to the caller. *)
Definition except_Exception (body : Exc SolveResult) : Exc SolveResult :=
  match body with
  | Return r => Return r
  | Raise e => if is_Exception e then Return (error_result e) else Raise e
  end.

Section Core.

(** The text of pydantic's [ValidationError] for a rejected objective; its
    wording belongs to the installed pydantic. *)
Variable validation_report : PyVal -> string.

(** pydantic's check of [Solution.objective : Optional[float]]. *)
Definition validate_objective (v : PyVal) : Exc (option Q) :=
  match v with
  | PyNone => Return None
  | PyInt n =>
      if float_overflows n
      then Raise (mkExc "ValidationError" (validation_report v))
      else Return (Some (inject_Z n))
  | PyFloat x => Return (Some x)
  | PyBool b => Return (Some (if b then 1%Q else 0%Q))
  | _ => Raise (mkExc "ValidationError" (validation_report v))
  end.

(** One [solutions.append(Solution(variables=..., objective=..., is_optimal=...))]:
    the record's fields are read first, then pydantic validates. *)
Definition make_solution (sol : PyVal) (objective_ : option PyVal)
    (optimal : bool) : Exc Solution :=
  try! d := get_dict sol in
  try! o := validate_objective (default PyNone objective_) in
  Return {| variables := sol_dict d; objective := o; is_optimal := optimal |}.

(** [for sol in result: ...], appending to [solutions] *)
Fixpoint extract_all (items : list PyVal) (solutions_ : list Solution)
    : Exc (list Solution) :=
  match items with
  | [] => Return solutions_
  | sol :: rest =>
      try! s := make_solution sol
                  (if hasattr sol "objective"
                   then Some (getattr_or_None sol "objective") else None)
                  false in
      extract_all rest (solutions_ ++ [s])
  end.

(** Lines 66-101: the branch on the engine's status. *)
Definition process_results (problem : ConstraintModel) (result : Result)
    : Exc (list Solution) :=
  let st := result_status result in
  if status_eqb st SATISFIED || status_eqb st ALL_SOLUTIONS then
    if all_solutions problem && result_bool result then
      try! sols := extract_all (result_items result) [] in
      match result_iter_raises result with
      | Some e => Raise e
      | None => Return sols
      end
    else if py_bool (result_solution result) then
      try! s := make_solution (result_solution result) (result_objective result)
                  (status_eqb st OPTIMAL_SOLUTION) in
      Return [s]
    else Return []
  else if status_eqb st OPTIMAL_SOLUTION then
    try! s := make_solution (result_solution result) (result_objective result)
                true in
    Return [s]
  else Return [].

(** Lines 66-118: from the engine's result to the returned record. *)
Definition normalize (problem : ConstraintModel) (result : Result)
    : Exc SolveResult :=
  try! solutions_ := process_results problem result in
  try! solve_time_value := convert_solve_time result in
  Return {| solutions := solutions_;
            status := str (result_status result);
            solve_time := solve_time_value;
            num_solutions := Z.of_nat (length solutions_);
            error := None |}.

(** The body of the [try]. *)
Definition try_body (E : Engine) (problem : ConstraintModel) : Exc SolveResult :=
  try! result := invoke E problem in
  normalize problem result.

(** [Return r]: the call returns [r]; [Raise e]: [e] leaves the call. *)
Definition solve_constraint_core (E : Engine) (problem : ConstraintModel)
    : Exc SolveResult :=
  except_Exception (try_body E problem).

(** ** Where a failure can be raised *)

Inductive Stage :=
| solver_lookup
| model_construction
| instance_construction
| data_binding
| engine_execution
| solution_extraction
| statistics_translation.

(** [raised_at E p st e]: running the body of the [try] on [p] against
    [E], every step before stage [st] completes and stage [st] raises [e]. *)
Inductive raised_at (E : Engine) (p : ConstraintModel) : Stage -> PyExc -> Prop :=
| raised_lookup e :
    lookup E (solver p) = Raise e ->
    raised_at E p solver_lookup e
| raised_new_model e s :
    lookup E (solver p) = Return s ->
    new_model E = Raise e ->
    raised_at E p model_construction e
| raised_add_string e s m :
    lookup E (solver p) = Return s ->
    new_model E = Return m ->
    add_string E m (model p) = Raise e ->
    raised_at E p model_construction e
| raised_new_instance e s m m' :
    lookup E (solver p) = Return s ->
    new_model E = Return m ->
    add_string E m (model p) = Return m' ->
    new_instance E s m' = Raise e ->
    raised_at E p instance_construction e
| raised_add_data e s m m' i :
    lookup E (solver p) = Return s ->
    new_model E = Return m ->
    add_string E m (model p) = Return m' ->
    new_instance E s m' = Return i ->
    add_data E i p = Raise e ->
    raised_at E p data_binding e
| raised_solve e s m m' i i' :
    lookup E (solver p) = Return s ->
    new_model E = Return m ->
    add_string E m (model p) = Return m' ->
    new_instance E s m' = Return i ->
    add_data E i p = Return i' ->
    run_solve E i' p = Raise e ->
    raised_at E p engine_execution e
| raised_extraction e res :
    invoke E p = Return res ->
    process_results p res = Raise e ->
    raised_at E p solution_extraction e
| raised_statistics e res sols :
    invoke E p = Return res ->
    process_results p res = Return sols ->
    convert_solve_time res = Raise e ->
    raised_at E p statistics_translation e.

(** [problem.model_copy(update={'timeout': t})], used to compare two requests. *)
Definition with_timeout (p : ConstraintModel) (t : option Z) : ConstraintModel :=
  {| model := model p; data := data p; solver := solver p;
     all_solutions := all_solutions p; timeout := t |}.

(** [problem.model_copy(update={'data': d})], used to compare two requests. *)
Definition with_data (p : ConstraintModel)
    (d : option (list (string * PyVal))) : ConstraintModel :=
  {| model := model p; data := d; solver := solver p;
     all_solutions := all_solutions p; timeout := timeout p |}.

(** A result that differs from [res] only in what [bool(result)] and
    iterating it give. *)
Definition with_iteration (res : Result) (b : bool) (items : list PyVal)
    (e : option PyExc) : Result :=
  {| result_status := result_status res;
     result_bool := b;
     result_items := items;
     result_iter_raises := e;
     result_solution := result_solution res;
     result_objective := result_objective res;
     result_statistics := result_statistics res |}.

(** How one iterated record and the solution appended for it relate. *)
Definition extracted_from (item : PyVal) (s : Solution) : Prop :=
  exists d a,
    item = PyObject d a /\
    variables s = sol_dict d /\
    validate_objective (getattr_or_None item "objective") = Return (objective s) /\
    is_optimal s = false.

(** ** Engines and requests used as concrete inputs *)

(** An engine whose lookup answers [look] and whose solve answers [res];
    every other operation completes. *)
Definition scripted (look : Exc unit) (res : Exc Result) : Engine :=
  {| SolverT := unit; ModelT := unit; InstanceT := unit;
     lookup := fun _ => look;
     new_model := Return tt;
     add_string := fun _ _ => Return tt;
     new_instance := fun _ _ => Return tt;
     setitem := fun _ _ _ => Return tt;
     solve_async := fun _ _ _ => res |}.

(** An engine that reports the time limit it was given as its solve time
    and claims no decision. *)
Definition echo_engine : Engine :=
  {| SolverT := unit; ModelT := unit; InstanceT := unit;
     lookup := fun _ => Return tt;
     new_model := Return tt;
     add_string := fun _ _ => Return tt;
     new_instance := fun _ _ => Return tt;
     setitem := fun _ _ _ => Return tt;
     solve_async := fun _ _ limit =>
       Return {| result_status := UNKNOWN;
                 result_bool := false;
                 result_items := [];
                 result_iter_raises := None;
                 result_solution := PyNone;
                 result_objective := Some PyNone;
                 result_statistics :=
                   Some (match limit with
                         | Some d => {[ "solveTime" := PyTimedelta d ]}
                         | None => ∅
                         end) |} |}.

(** An engine whose instance is the list of the names bound so far and
    which refuses to bind the name [bad]. *)
Definition picky_engine (bad : string) : Engine :=
  {| SolverT := unit; ModelT := unit; InstanceT := list string;
     lookup := fun _ => Return ();
     new_model := Return ();
     add_string := fun _ _ => Return ();
     new_instance := fun _ _ => Return [];
     setitem := fun bound key _ =>
       if String.eqb key bad
       then Raise (mkExc "MiniZincError" ("Undefined parameter " +:+ key))
       else Return (bound ++ [key]);
     solve_async := fun bound _ _ =>
       Return {| result_status := UNKNOWN;
                 result_bool := false;
                 result_items := [];
                 result_iter_raises := None;
                 result_solution := PyNone;
                 result_objective := Some PyNone;
                 result_statistics := Some ∅ |} |}.

Definition request (all : bool) (t : option Z) : ConstraintModel :=
  {| model := "var 1..10: x; solve satisfy;";
     data := None;
     solver := "gecode";
     all_solutions := all;
     timeout := t |}.

(** An outcome with the given status, solution and statistics; falsy, and
    empty when iterated. *)
Definition outcome (st : Status) (sol : PyVal)
    (stats : gmap string PyVal) : Result :=
  {| result_status := st;
     result_bool := false;
     result_items := [];
     result_iter_raises := None;
     result_solution := sol;
     result_objective := Some (getattr_or_None sol "objective");
     result_statistics := Some stats |}.

(** An outcome of an enumeration: it iterates over [items], is truthy when
    there is one, and holds them as its [solution]. *)
Definition enumeration (st : Status) (items : list PyVal) : Result :=
  {| result_status := st;
     result_bool := negb (Nat.eqb (length items) 0);
     result_items := items;
     result_iter_raises := None;
     result_solution := PyList items;
     result_objective := Some PyNone;
     result_statistics := Some ∅ |}.

(** The solution record [x = 3], with the engine's private bookkeeping field. *)
Definition record_x3 : PyVal :=
  plain_record (<[ "x" := PyInt 3 ]> (<[ "_output_item" := PyNone ]> ∅)).

(** The solution record [x = 7] of an optimisation, with its objective. *)
Definition record_x7 : PyVal :=
  plain_record (<[ "x" := PyInt 7 ]> (<[ "objective" := PyInt 7 ]> ∅)).

(** An engine on which everything completes and whose solve answers [res]. *)
Definition answers (res : Result) : Engine :=
  scripted (Return ()) (Return res).

(** The cancellation of the awaiting task: not an [Exception]. *)
Definition CancelledError : PyExc := BaseException "CancelledError" "" false.

(** A report text in the manner of pydantic 2, for concrete runs. *)
Definition report (v : PyVal) : string :=
  "1 validation error for Solution: objective: Input should be a valid number, input_type="
    +:+ type_name v.

(** ** The ways out of the core *)

Lemma bind_Return {A B} (c : Exc A) (k : A -> Exc B) (b : B) :
  bind c k = Return b -> exists a, c = Return a /\ k a = Return b.
Proof. destruct c as [a|e]; simpl; [eauto | discriminate]. Qed.

Lemma bind_Raise {A B} (c : Exc A) (k : A -> Exc B) (e : PyExc) :
  bind c k = Raise e ->
  c = Raise e \/ exists a, c = Return a /\ k a = Raise e.
Proof. destruct c as [a|e']; simpl; [eauto | left; congruence]. Qed.

(** A failing body reaches the handler, which returns its record for an
    [Exception] and lets anything else through. *)
Lemma core_of_Raise E p e :
  try_body E p = Raise e ->
  solve_constraint_core E p
  = if is_Exception e then Return (error_result e) else Raise e.
Proof. unfold solve_constraint_core. intros ->. reflexivity. Qed.

Lemma core_of_Exception E p e :
  try_body E p = Raise e ->
  is_Exception e = true ->
  solve_constraint_core E p = Return (error_result e).
Proof. intros H He. rewrite (core_of_Raise _ _ _ H), He. reflexivity. Qed.

Lemma core_of_Return E p r :
  try_body E p = Return r -> solve_constraint_core E p = Return r.
Proof. unfold solve_constraint_core. intros ->. reflexivity. Qed.

(** A completed body went through every block. *)
Lemma try_body_Return E p r :
  try_body E p = Return r ->
  exists res sols t,
    invoke E p = Return res /\
    process_results p res = Return sols /\
    convert_solve_time res = Return t /\
    r = {| solutions := sols;
           status := str (result_status res);
           solve_time := t;
           num_solutions := Z.of_nat (length sols);
           error := None |}.
Proof.
  unfold try_body, normalize. intros H.
  apply bind_Return in H as (res & Hres & H).
  apply bind_Return in H as (sols & Hsols & H).
  apply bind_Return in H as (t & Ht & H).
  exists res, sols, t. repeat split; try assumption. congruence.
Qed.

Lemma try_body_complete E p res sols t :
  invoke E p = Return res ->
  process_results p res = Return sols ->
  convert_solve_time res = Return t ->
  try_body E p = Return {| solutions := sols;
                           status := str (result_status res);
                           solve_time := t;
                           num_solutions := Z.of_nat (length sols);
                           error := None |}.
Proof.
  intros Hres Hsols Ht. unfold try_body, normalize.
  rewrite Hres. simpl. rewrite Hsols. simpl. rewrite Ht. reflexivity.
Qed.

(** The body fails exactly when one of the stages raises. *)
Lemma raised_at_try_body E p st e :
  raised_at E p st e -> try_body E p = Raise e.
Proof.
  unfold try_body, normalize.
  destruct 1 as [e H | e s H1 H | e s m H1 H2 H | e s m m' H1 H2 H3 H
                | e s m m' i H1 H2 H3 H4 H | e s m m' i i' H1 H2 H3 H4 H5 H
                | e res H1 H | e res sols H1 H2 H];
    try (rewrite H1; clear H1; simpl);
    unfold invoke, prepare;
    repeat match goal with
           | Heq : _ = _ |- _ => rewrite Heq; clear Heq; simpl
           end;
    reflexivity.
Qed.

Lemma try_body_raised_at E p e :
  try_body E p = Raise e -> exists st, raised_at E p st e.
Proof.
  unfold try_body, normalize. intros H.
  apply bind_Raise in H as [H | (res & Hres & H)].
  - unfold invoke, prepare in H.
    destruct (lookup E (solver p)) as [s|e1] eqn:H1; simpl in H;
      [| injection H as ->; eauto using raised_at].
    destruct (new_model E) as [m|e2] eqn:H2; simpl in H;
      [| injection H as ->; eauto using raised_at].
    destruct (add_string E m (model p)) as [m'|e3] eqn:H3; simpl in H;
      [| injection H as ->; eauto using raised_at].
    destruct (new_instance E s m') as [i|e4] eqn:H4; simpl in H;
      [| injection H as ->; eauto using raised_at].
    destruct (add_data E i p) as [i'|e5] eqn:H5; simpl in H;
      [| injection H as ->; eauto using raised_at].
    eauto using raised_at.
  - apply bind_Raise in H as [H | (sols & Hsols & H)];
      [eauto using raised_at |].
    apply bind_Raise in H as [H | (t & _ & H)];
      [eauto using raised_at | discriminate].
Qed.

(** Every returned record has one of two shapes. *)
Lemma core_cases E p r :
  solve_constraint_core E p = Return r ->
  (exists st e, raised_at E p st e /\ is_Exception e = true /\
                r = error_result e) \/
  (exists res sols t,
      invoke E p = Return res /\
      process_results p res = Return sols /\
      convert_solve_time res = Return t /\
      r = {| solutions := sols;
             status := str (result_status res);
             solve_time := t;
             num_solutions := Z.of_nat (length sols);
             error := None |}).
Proof.
  unfold solve_constraint_core.
  destruct (try_body E p) as [r'|e] eqn:H; simpl.
  - intros Hr. injection Hr as <-. right. now apply try_body_Return.
  - destruct (is_Exception e) eqn:He; [| discriminate].
    intros Hr. injection Hr as <-. left.
    destruct (try_body_raised_at _ _ _ H) as [st Hst].
    exists st, e. repeat split; assumption.
Qed.

(** What leaves the call was raised by a stage and is not an [Exception]. *)
Lemma core_propagates E p e :
  solve_constraint_core E p = Raise e ->
  (exists st, raised_at E p st e) /\ is_Exception e = false.
Proof.
  unfold solve_constraint_core.
  destruct (try_body E p) as [r'|e'] eqn:H; simpl; [discriminate |].
  destruct (is_Exception e') eqn:He; [discriminate |].
  intros Hr. injection Hr as <-.
  split; [now apply try_body_raised_at | assumption].
Qed.

(** The steps before the awaited call, then the call. *)
Lemma core_of_prepare E p i :
  prepare E p = Return i ->
  invoke E p = run_solve E i p /\
  solve_constraint_core E p
  = except_Exception (try! result := run_solve E i p in normalize p result).
Proof.
  intros H. unfold solve_constraint_core, try_body, invoke. rewrite H.
  split; reflexivity.
Qed.

(** ** Facts about the status branch *)

Lemma status_eqb_eq a b : status_eqb a b = true <-> a = b.
Proof. destruct a, b; simpl; split; congruence. Qed.

Lemma str_inj a b : str a = str b -> a = b.
Proof. destruct a, b; simpl; intros H; try reflexivity; discriminate H. Qed.

Lemma make_solution_optimal sol o b s :
  make_solution sol o b = Return s -> is_optimal s = b.
Proof.
  unfold make_solution. intros H.
  apply bind_Return in H as (d & _ & H).
  apply bind_Return in H as (v & _ & H).
  injection H as <-. reflexivity.
Qed.

(** What a built solution is made of. *)
Lemma make_solution_Return sol o b s :
  make_solution sol o b = Return s ->
  exists d a q,
    sol = PyObject d a /\
    validate_objective (default PyNone o) = Return q /\
    s = {| variables := sol_dict d; objective := q; is_optimal := b |}.
Proof.
  unfold make_solution. intros H.
  apply bind_Return in H as (d & Hd & H).
  apply bind_Return in H as (q & Hq & H).
  injection H as <-.
  destruct sol; try discriminate Hd. injection Hd as ->.
  eauto 6.
Qed.

Lemma make_solution_not_object sol o b :
  (forall d a, sol <> PyObject d a) ->
  make_solution sol o b = Raise (AttributeError sol "__dict__").
Proof.
  intros H. destruct sol; try reflexivity.
  contradiction (H fields attributes). reflexivity.
Qed.

(** Reading the fields and validating the objective raise [Exception]s. *)
Lemma validate_objective_Exception v e :
  validate_objective v = Raise e -> is_Exception e = true.
Proof.
  destruct v; simpl; try destruct (float_overflows n);
    intros H; try discriminate H; injection H as <-; reflexivity.
Qed.

Lemma make_solution_Exception sol o b e :
  make_solution sol o b = Raise e -> is_Exception e = true.
Proof.
  unfold make_solution. intros H.
  apply bind_Raise in H as [H | (d & _ & H)].
  - destruct sol; simpl in H; try discriminate H; injection H as <-; reflexivity.
  - apply bind_Raise in H as [H | (q & _ & H)]; [| discriminate H].
    exact (validate_objective_Exception _ _ H).
Qed.

Lemma extract_all_Exception items acc e :
  extract_all items acc = Raise e -> is_Exception e = true.
Proof.
  revert acc. induction items as [|item rest IH]; simpl; intros acc H;
    [discriminate H |].
  apply bind_Raise in H as [H | (s & _ & H)].
  - exact (make_solution_Exception _ _ _ _ H).
  - exact (IH _ H).
Qed.

(** So does converting the solve time. *)
Lemma convert_solve_time_Exception res e :
  convert_solve_time res = Raise e -> is_Exception e = true.
Proof.
  unfold convert_solve_time.
  destruct (result_statistics res) as [stats|]; [| discriminate].
  destruct (stats !! "solveTime") as [v|]; [| discriminate].
  destruct v; simpl; try destruct (float_overflows n);
    try destruct (bool_decide _); try destruct (attributes !! "total_seconds");
    intros H; try discriminate H; injection H as <-; reflexivity.
Qed.

Lemma extract_all_not_optimal items acc sols :
  extract_all items acc = Return sols ->
  Forall (fun s => is_optimal s = false) acc ->
  Forall (fun s => is_optimal s = false) sols.
Proof.
  revert acc. induction items as [|sol rest IH]; simpl; intros acc H Hacc.
  - injection H as <-. assumption.
  - apply bind_Return in H as (s & Hs & H).
    apply (IH _ H). apply Forall_app. split; [assumption|].
    constructor; [| constructor].
    exact (make_solution_optimal _ _ _ _ Hs).
Qed.

(** Outside the three statuses named by the code nothing is extracted and
    nothing can raise. *)
Lemma process_results_other p res :
  result_status res <> SATISFIED ->
  result_status res <> ALL_SOLUTIONS ->
  result_status res <> OPTIMAL_SOLUTION ->
  process_results p res = Return [].
Proof.
  unfold process_results. destruct (result_status res); simpl; congruence.
Qed.

(** Under OPTIMAL_SOLUTION the branch reads [result.solution] whatever the
    request's mode. *)
Lemma process_results_optimal p res :
  result_status res = OPTIMAL_SOLUTION ->
  process_results p res =
    try! s := make_solution (result_solution res) (result_objective res) true in
    Return [s].
Proof. unfold process_results. intros ->. reflexivity. Qed.

(** Under SATISFIED and ALL_SOLUTIONS no extracted solution is optimal. *)
Lemma process_results_satisfied p res sols :
  result_status res = SATISFIED \/ result_status res = ALL_SOLUTIONS ->
  process_results p res = Return sols ->
  Forall (fun s => is_optimal s = false) sols.
Proof.
  unfold process_results. intros Hst H.
  assert (Hb : status_eqb (result_status res) SATISFIED
               || status_eqb (result_status res) ALL_SOLUTIONS = true)
    by (destruct Hst as [-> | ->]; reflexivity).
  assert (Ho : status_eqb (result_status res) OPTIMAL_SOLUTION = false)
    by (destruct Hst as [-> | ->]; reflexivity).
  rewrite Hb, Ho in H.
  destruct (all_solutions p && result_bool res).
  - apply bind_Return in H as (acc & Hacc & H).
    destruct (result_iter_raises res); [discriminate|].
    injection H as <-.
    apply (extract_all_not_optimal _ _ _ Hacc). constructor.
  - destruct (py_bool (result_solution res)).
    + apply bind_Return in H as (s & Hs & H). injection H as <-.
      constructor; [| constructor].
      exact (make_solution_optimal _ _ _ _ Hs).
    + injection H as <-. constructor.
Qed.

(** A returned status reading OPTIMAL_SOLUTION comes from the success
    return with the engine's status OPTIMAL_SOLUTION and one extracted,
    optimal solution. *)
Lemma optimal_status_inv E p r :
  solve_constraint_core E p = Return r ->
  status r = "OPTIMAL_SOLUTION" ->
  exists res s,
    invoke E p = Return res /\
    result_status res = OPTIMAL_SOLUTION /\
    make_solution (result_solution res) (result_objective res) true = Return s /\
    solutions r = [s].
Proof.
  intros Hr H.
  destruct (core_cases E p r Hr)
    as [(st & e & _ & _ & ->) | (res & sols & t & Hres & Hsols & _ & ->)];
    simpl in H |- *; [discriminate H |].
  apply (str_inj _ OPTIMAL_SOLUTION) in H.
  rewrite (process_results_optimal _ _ H) in Hsols.
  apply bind_Return in Hsols as (s & Hs & Hsols). injection Hsols as <-.
  exists res, s. repeat split; assumption.
Qed.

(** The filter of the copying loop, key by key. *)
Lemma sol_dict_lookup (d : gmap string PyVal) (k : string) :
  sol_dict d !! k = if String.prefix "_" k then None else d !! k.
Proof.
  unfold sol_dict. destruct (String.prefix "_" k) eqn:Hk.
  - apply map_lookup_filter_None_2. right. intros x _. simpl. congruence.
  - destruct (d !! k) as [v|] eqn:Hd.
    + apply map_lookup_filter_Some_2; [assumption | exact Hk].
    + apply map_lookup_filter_None_2. left. assumption.
Qed.

(** In the loop the objective is the record's own attribute, [None]
    without one. *)
Lemma loop_objective (sol : PyVal) :
  default PyNone (if hasattr sol "objective"
                  then Some (getattr_or_None sol "objective") else None)
  = getattr_or_None sol "objective".
Proof.
  destruct sol; try reflexivity. unfold hasattr, getattr_or_None.
  destruct (attributes !! "objective"); reflexivity.
Qed.

Lemma extract_all_Forall2 items acc sols :
  extract_all items acc = Return sols ->
  exists new, sols = acc ++ new /\ Forall2 extracted_from items new.
Proof.
  revert acc. induction items as [|item rest IH]; simpl; intros acc H.
  - injection H as <-. exists []. split; [now rewrite app_nil_r | constructor].
  - apply bind_Return in H as (s & Hs & H).
    destruct (IH _ H) as (new & -> & Hnew).
    exists (s :: new). split; [now rewrite <- app_assoc |].
    constructor; [| assumption].
    apply make_solution_Return in Hs as (d & a & q & -> & Hq & ->).
    rewrite loop_objective in Hq.
    exists d, a. repeat split. exact Hq.
Qed.

Lemma extract_all_raises items acc item :
  In item items ->
  (forall d a, item <> PyObject d a) ->
  exists e, extract_all items acc = Raise e.
Proof.
  intros Hin Hitem. revert acc.
  induction items as [|hd rest IH]; [contradiction Hin |]; intros acc. simpl.
  destruct (make_solution hd _ false) as [s|e] eqn:Hs; simpl; [| eauto].
  destruct Hin as [-> | Hin]; [| exact (IH Hin _)].
  rewrite make_solution_not_object in Hs by assumption. discriminate Hs.
Qed.

(** The enumeration branch is taken under these three conditions. *)
Lemma process_results_enumeration p res :
  result_status res = SATISFIED \/ result_status res = ALL_SOLUTIONS ->
  all_solutions p = true ->
  result_bool res = true ->
  process_results p res =
    try! sols := extract_all (result_items res) [] in
    match result_iter_raises res with
    | Some e => Raise e
    | None => Return sols
    end.
Proof.
  intros Hst Hall Hbool. unfold process_results. rewrite Hall, Hbool.
  destruct Hst as [-> | ->]; reflexivity.
Qed.

(** Every extracted solution's [variables] is a filtered [__dict__]. *)
Lemma process_results_variables p res sols :
  process_results p res = Return sols ->
  Forall (fun s => exists d, variables s = sol_dict d) sols.
Proof.
  unfold process_results. intros H.
  assert (Hone : forall sol o b l,
            (try! s := make_solution sol o b in Return [s]) = Return l ->
            Forall (fun s => exists d, variables s = sol_dict d) l).
  { intros sol o b l Hl. apply bind_Return in Hl as (s & Hs & Hl).
    injection Hl as <-.
    apply make_solution_Return in Hs as (d & a & q & _ & _ & ->).
    constructor; [eauto | constructor]. }
  destruct (status_eqb (result_status res) SATISFIED
            || status_eqb (result_status res) ALL_SOLUTIONS).
  - destruct (all_solutions p && result_bool res).
    + apply bind_Return in H as (acc & Hacc & H).
      destruct (result_iter_raises res); [discriminate |]. injection H as <-.
      apply extract_all_Forall2 in Hacc as (new & -> & Hnew). simpl.
      induction Hnew as [|item s items new (d & a & _ & Hv & _) _ IH];
        constructor; eauto.
    + destruct (py_bool (result_solution res)); [eauto |].
      injection H as <-. constructor.
  - destruct (status_eqb (result_status res) OPTIMAL_SOLUTION); [eauto |].
    injection H as <-. constructor.
Qed.

(** Without enumeration at most one solution is appended. *)
Lemma process_results_single p res sols :
  all_solutions p = false ->
  process_results p res = Return sols ->
  (length sols <= 1)%nat.
Proof.
  unfold process_results. intros -> H. simpl in H.
  assert (Hone : forall sol o b l,
            (try! s := make_solution sol o b in Return [s]) = Return l ->
            (length l <= 1)%nat).
  { intros sol o b l Hl. apply bind_Return in Hl as (s & _ & Hl).
    injection Hl as <-. simpl. lia. }
  destruct (status_eqb (result_status res) SATISFIED
            || status_eqb (result_status res) ALL_SOLUTIONS).
  - destruct (py_bool (result_solution res)); [eauto |].
    injection H as <-. simpl. lia.
  - destruct (status_eqb (result_status res) OPTIMAL_SOLUTION); [eauto |].
    injection H as <-. simpl. lia.
Qed.

(** Without enumeration, and under the other statuses, what extraction
    raises is an [Exception]. *)
Lemma process_results_single_Exception p res e :
  all_solutions p = false ->
  process_results p res = Raise e ->
  is_Exception e = true.
Proof.
  unfold process_results. intros -> H. simpl in H.
  assert (Hone : forall sol o b,
            (try! s := make_solution sol o b in Return [s]) = Raise e ->
            is_Exception e = true).
  { intros sol o b Hl. apply bind_Raise in Hl as [Hl | (s & _ & Hl)];
      [exact (make_solution_Exception _ _ _ _ Hl) | discriminate Hl]. }
  destruct (status_eqb (result_status res) SATISFIED
            || status_eqb (result_status res) ALL_SOLUTIONS).
  - destruct (py_bool (result_solution res)); [eauto | discriminate H].
  - destruct (status_eqb (result_status res) OPTIMAL_SOLUTION);
      [eauto | discriminate H].
Qed.

(** Binding a concatenation, step by step. *)
Lemma bind_data_app_eq (E : Engine) (i : InstanceT E)
    (l1 l2 : list (string * PyVal)) :
  bind_data E i (l1 ++ l2)
  = try! i' := bind_data E i l1 in bind_data E i' l2.
Proof.
  revert i. induction l1 as [|[k v] l1 IH]; intros i; simpl; [reflexivity |].
  destruct (setitem E i k v) as [i'|e]; simpl; [apply IH | reflexivity].
Qed.

(** Only the awaited call looks at [timeout]: two requests that differ in
    it alone and reach the same engine call return the same record. *)
Lemma core_with_timeout E p t :
  (forall i, run_solve E i (with_timeout p t) = run_solve E i p) ->
  solve_constraint_core E (with_timeout p t) = solve_constraint_core E p.
Proof.
  intros Hrun.
  assert (Hinvoke : invoke E (with_timeout p t) = invoke E p).
  { unfold invoke.
    change (prepare E (with_timeout p t)) with (prepare E p).
    destruct (prepare E p) as [i|e]; [| reflexivity].
    cbn [bind]. apply Hrun. }
  unfold solve_constraint_core, try_body. rewrite Hinvoke.
  reflexivity.
Qed.

(** The time limit built from a timeout within the range of [timedelta]. *)
Lemma timedelta_in_range t :
  -86399999913600 <= t < 86400000000000 ->
  timedelta_of_seconds t = Return (Timedelta (t * 1000000)).
Proof.
  intros Ht. unfold timedelta_of_seconds.
  assert (H1 : -999999999 <= t / 86400)
    by (apply Z.div_le_lower_bound; lia).
  assert (H2 : t / 86400 <= 999999999)
    by (apply Z.lt_succ_r, Z.div_lt_upper_bound; lia).
  apply Z.leb_le in H1, H2. cbv zeta. rewrite H1, H2. reflexivity.
Qed.

Lemma timedelta_out_of_range t :
  t < -86399999913600 \/ 86400000000000 <= t ->
  exists e, timedelta_of_seconds t = Raise e /\ is_Exception e = true.
Proof.
  intros Ht. unfold timedelta_of_seconds. cbv zeta.
  assert (H : (-999999999 <=? t / 86400) && (t / 86400 <=? 999999999) = false).
  { apply andb_false_iff. destruct Ht as [Ht | Ht].
    - left. apply Z.leb_gt. apply Z.div_lt_upper_bound; lia.
    - right. apply Z.leb_gt.
      apply Z.lt_le_trans with (m := 1000000000); [lia |].
      apply Z.div_le_lower_bound; lia. }
  rewrite H.
  destruct ((-2147483648 <=? t / 86400) && (t / 86400 <=? 2147483647));
    eexists; split; reflexivity.
Qed.

(** ** The claims *)

(** C1 (amended).  Whatever stage of the body raises (solver lookup, model
    or instance construction, data binding, engine execution, solution
    extraction, statistics translation): if what is raised is an
    [Exception], [solve_constraint_core] returns the record with no
    solutions, status "ERROR", solve time 0.0, zero solutions counted and
    the failure's message as [error]; if it is not, it leaves the call. *)
Theorem failure_becomes_error_result
    (E : Engine) (p : ConstraintModel) (st : Stage) (e : PyExc) :
  raised_at E p st e ->
  (is_Exception e = true ->
   solve_constraint_core E p =
     Return {| solutions := [];
               status := "ERROR";
               solve_time := 0%Q;
               num_solutions := 0;
               error := Some (exc_str e) |}) /\
  (is_Exception e = false -> solve_constraint_core E p = Raise e).
Proof.
  intros H. apply raised_at_try_body in H.
  rewrite (core_of_Raise _ _ _ H).
  split; intros ->; reflexivity.
Qed.

(** C2 (amended).  In a returned record [error] is present exactly when a
    stage of the body raised, and it is then that failure's message (empty
    when the message is) under status "ERROR"; every status other than
    "ERROR" comes with [error] absent; status "ERROR" with [error] absent
    is the engine's own ERROR status passed through. *)
Theorem error_present_iff_raised
    (E : Engine) (p : ConstraintModel) (r : SolveResult) :
  solve_constraint_core E p = Return r ->
  (status r <> "ERROR" -> error r = None) /\
  (forall m,
      error r = Some m <->
      exists st e, raised_at E p st e /\ m = exc_str e) /\
  ((exists st e, raised_at E p st e) -> status r = "ERROR") /\
  (status r = "ERROR" ->
   error r = None ->
   exists res, invoke E p = Return res /\ result_status res = ERROR).
Proof.
  intros Hr.
  destruct (core_cases E p r Hr)
    as [(st & e & Hraise & _ & ->) | (res & sols & t & Hres & Hsols & Ht & ->)];
    simpl.
  - repeat split.
    + intros H. contradiction H. reflexivity.
    + intros H. injection H as <-. eauto.
    + intros (st' & e' & Hraise' & ->).
      apply raised_at_try_body in Hraise, Hraise'. congruence.
    + discriminate.
  - pose proof (try_body_complete _ _ _ _ _ Hres Hsols Ht) as Hok.
    repeat split.
    + discriminate.
    + intros (st' & e' & Hraise' & _).
      apply raised_at_try_body in Hraise'. congruence.
    + intros (st' & e' & Hraise').
      apply raised_at_try_body in Hraise'. congruence.
    + intros H _. exists res. split; [assumption |].
      exact (str_inj _ ERROR H).
Qed.

(** C3 (amended).  With [all_solutions] set, every returned solution has
    [is_optimal = false] unless the returned status is "OPTIMAL_SOLUTION";
    under that status exactly one solution is returned and it is marked
    optimal, whatever [all_solutions] is. *)
Theorem enumeration_optimal_only_under_optimal_status
    (E : Engine) (p : ConstraintModel) (r : SolveResult) :
  solve_constraint_core E p = Return r ->
  (all_solutions p = true ->
   status r <> "OPTIMAL_SOLUTION" ->
   Forall (fun s => is_optimal s = false) (solutions r)) /\
  (status r = "OPTIMAL_SOLUTION" ->
   exists s, solutions r = [s] /\ is_optimal s = true).
Proof.
  intros Hr. split.
  - intros _.
    destruct (core_cases E p r Hr)
      as [(st & e & _ & _ & ->) | (res & sols & t & _ & Hsols & _ & ->)];
      simpl; [constructor |].
    intros Hne.
    destruct (result_status res) eqn:Hst;
      try (rewrite process_results_other in Hsols by congruence;
           injection Hsols as <-; constructor).
    + apply (process_results_satisfied p res); auto.
    + apply (process_results_satisfied p res); auto.
    + contradiction Hne. reflexivity.
  - intros H.
    destruct (optimal_status_inv E p r Hr H) as (res & s & _ & _ & Hs & Hsols).
    exists s. split; [assumption |].
    exact (make_solution_optimal _ _ _ _ Hs).
Qed.

(** C4. A returned status reading "OPTIMAL_SOLUTION" comes with exactly
    one solution, and that solution is marked optimal. *)
Theorem optimal_status_one_optimal_solution
    (E : Engine) (p : ConstraintModel) (r : SolveResult) :
  solve_constraint_core E p = Return r ->
  status r = "OPTIMAL_SOLUTION" ->
  exists s, solutions r = [s] /\ is_optimal s = true.
Proof.
  intros Hr H.
  destruct (optimal_status_inv E p r Hr H) as (res & s & _ & _ & Hs & Hsols).
  exists s. split; [assumption |].
  exact (make_solution_optimal _ _ _ _ Hs).
Qed.

(** C5. The count reported always equals the length of the list returned,
    on the success return and on the handler's. *)
Theorem num_solutions_is_length
    (E : Engine) (p : ConstraintModel) (r : SolveResult) :
  solve_constraint_core E p = Return r ->
  num_solutions r = Z.of_nat (length (solutions r)).
Proof.
  intros Hr.
  destruct (core_cases E p r Hr)
    as [(st & e & _ & _ & ->) | (res & sols & t & _ & _ & _ & ->)];
    reflexivity.
Qed.

(** C6 (amended).  [str] is defined on every engine status, and whenever
    the body completes the returned status is that literal, with [error]
    absent.  For a status other than SATISFIED, ALL_SOLUTIONS and
    OPTIMAL_SOLUTION extraction adds nothing and cannot raise, so the body
    completes as soon as the solve time converts: zero solutions, the
    status passed through, no error. *)
Theorem status_passed_through_on_completion
    (E : Engine) (p : ConstraintModel) (res : Result) :
  invoke E p = Return res ->
  (forall r,
      normalize p res = Return r ->
      solve_constraint_core E p = Return r /\
      status r = str (result_status res) /\
      error r = None) /\
  (result_status res <> SATISFIED ->
   result_status res <> ALL_SOLUTIONS ->
   result_status res <> OPTIMAL_SOLUTION ->
   process_results p res = Return [] /\
   forall t,
     convert_solve_time res = Return t ->
     solve_constraint_core E p =
       Return {| solutions := [];
                 status := str (result_status res);
                 solve_time := t;
                 num_solutions := 0;
                 error := None |}).
Proof.
  intros Hres. split.
  - intros r Hr.
    assert (Hbody : try_body E p = Return r)
      by (unfold try_body; rewrite Hres; exact Hr).
    split; [now apply core_of_Return |].
    unfold normalize in Hr.
    apply bind_Return in Hr as (sols & _ & Hr).
    apply bind_Return in Hr as (t & _ & Hr).
    injection Hr as <-. split; reflexivity.
  - intros H1 H2 H3.
    pose proof (process_results_other p res H1 H2 H3) as Hsols.
    split; [assumption |].
    intros t Ht. apply core_of_Return.
    exact (try_body_complete _ _ _ _ _ Hres Hsols Ht).
Qed.

(** C7 (amended).  On an outcome whose solutions extract, a missing
    [statistics] attribute or a missing 'solveTime' key gives
    [solve_time = 0.0] and no failure; a [timedelta] is converted by
    [total_seconds]; a [float] is handed on; an [int] is cast to float
    when it is within the range of a float, and otherwise [float] raises
    and the call returns the error record.  No sign is checked: the solve
    time is non-negative exactly when the engine's entry is. *)
Theorem solve_time_follows_statistics
    (E : Engine) (p : ConstraintModel) (res : Result) (sols : list Solution) :
  invoke E p = Return res ->
  process_results p res = Return sols ->
  ((result_statistics res = None \/
    exists stats, result_statistics res = Some stats /\
                  stats !! "solveTime" = None) ->
   solve_constraint_core E p =
     Return {| solutions := sols;
               status := str (result_status res);
               solve_time := 0%Q;
               num_solutions := Z.of_nat (length sols);
               error := None |}) /\
  (forall stats d,
      result_statistics res = Some stats ->
      stats !! "solveTime" = Some (PyTimedelta d) ->
      solve_constraint_core E p =
        Return {| solutions := sols;
                  status := str (result_status res);
                  solve_time := total_seconds d;
                  num_solutions := Z.of_nat (length sols);
                  error := None |} /\
      (0 <= total_microseconds d <-> (0 <= total_seconds d)%Q)) /\
  (forall stats n,
      result_statistics res = Some stats ->
      stats !! "solveTime" = Some (PyInt n) ->
      (float_overflows n = false ->
       solve_constraint_core E p =
         Return {| solutions := sols;
                   status := str (result_status res);
                   solve_time := inject_Z n;
                   num_solutions := Z.of_nat (length sols);
                   error := None |} /\
       (0 <= n <-> (0 <= inject_Z n)%Q)) /\
      (float_overflows n = true ->
       solve_constraint_core E p =
         Return {| solutions := [];
                   status := "ERROR";
                   solve_time := 0%Q;
                   num_solutions := 0;
                   error := Some "int too large to convert to float" |})) /\
  (forall stats x,
      result_statistics res = Some stats ->
      stats !! "solveTime" = Some (PyFloat x) ->
      solve_constraint_core E p =
        Return {| solutions := sols;
                  status := str (result_status res);
                  solve_time := x;
                  num_solutions := Z.of_nat (length sols);
                  error := None |}).
Proof.
  intros Hres Hsols.
  assert (Hcore : forall t, convert_solve_time res = Return t ->
            solve_constraint_core E p =
              Return {| solutions := sols;
                        status := str (result_status res);
                        solve_time := t;
                        num_solutions := Z.of_nat (length sols);
                        error := None |}).
  { intros t Ht. apply core_of_Return.
    exact (try_body_complete _ _ _ _ _ Hres Hsols Ht). }
  split; [| split; [| split]].
  - intros Hmissing. apply Hcore.
    unfold convert_solve_time.
    destruct Hmissing as [-> | (stats & -> & ->)]; reflexivity.
  - intros stats d Hstats Hd. split.
    + apply Hcore. unfold convert_solve_time. rewrite Hstats, Hd. reflexivity.
    + unfold total_seconds, Qle. simpl. lia.
  - intros stats n Hstats Hn. split.
    + intros Hfit. split.
      * apply Hcore. unfold convert_solve_time. rewrite Hstats, Hn.
        simpl. rewrite Hfit. reflexivity.
      * unfold inject_Z, Qle. simpl. lia.
    + intros Hover.
      apply (core_of_Exception _ _
               (OverflowError "int too large to convert to float"));
        [| reflexivity].
      unfold try_body, normalize. rewrite Hres. simpl. rewrite Hsols. simpl.
      unfold convert_solve_time. rewrite Hstats, Hn. simpl. rewrite Hover.
      reflexivity.
  - intros stats x Hstats Hx.
    apply Hcore. unfold convert_solve_time. rewrite Hstats, Hx. reflexivity.
Qed.

(** C8 (amended).  [timeout = 0] fails the truthiness test like [None]:
    the engine is awaited without a time limit and the call returns what
    the same request without a timeout returns.  A negative timeout passes
    the test: down to -86399999913600 seconds the engine is awaited with
    that negative time limit and the call returns what the engine's answer
    normalizes to; below, building the [timedelta] raises, the engine is
    not awaited and the call returns the error record. *)
Theorem timeout_tested_by_truthiness (E : Engine) (p : ConstraintModel) :
  (timeout p = Some 0 ->
   solve_constraint_core E p = solve_constraint_core E (with_timeout p None) /\
   forall i,
     prepare E p = Return i ->
     invoke E p = solve_async E i (all_solutions p) None) /\
  (forall t i,
      t < 0 ->
      timeout p = Some t ->
      prepare E p = Return i ->
      (-86399999913600 <= t ->
       invoke E p
       = solve_async E i (all_solutions p) (Some (Timedelta (t * 1000000))) /\
       solve_constraint_core E p
       = except_Exception
           (try! result := solve_async E i (all_solutions p)
                             (Some (Timedelta (t * 1000000))) in
            normalize p result) /\
       total_microseconds (Timedelta (t * 1000000)) < 0) /\
      (t < -86399999913600 ->
       exists e,
         timedelta_of_seconds t = Raise e /\
         raised_at E p engine_execution e /\
         solve_constraint_core E p = Return (error_result e))).
Proof.
  split.
  - intros Ht.
    assert (Hrun : forall i,
               run_solve E i p = solve_async E i (all_solutions p) None)
      by (intros i; unfold run_solve; rewrite Ht; reflexivity).
    split.
    + symmetry. apply core_with_timeout.
      intros i. rewrite Hrun. reflexivity.
    + intros i Hi. rewrite (proj1 (core_of_prepare _ _ _ Hi)). apply Hrun.
  - intros t i Hneg Ht Hi.
    destruct (core_of_prepare _ _ _ Hi) as [Hinvoke Hcore].
    assert (Hrun : run_solve E i p =
                   try! time_limit := timedelta_of_seconds t in
                   solve_async E i (all_solutions p) (Some time_limit)).
    { unfold run_solve. rewrite Ht.
      destruct (Z.eqb_spec t 0) as [-> | _]; [lia | reflexivity]. }
    split.
    + intros Hlow.
      rewrite timedelta_in_range in Hrun by lia. simpl in Hrun.
      rewrite Hinvoke, Hcore, Hrun. repeat split. simpl. lia.
    + intros Hlow.
      destruct (timedelta_out_of_range t (or_introl Hlow)) as (e & He & Hexc).
      rewrite He in Hrun. simpl in Hrun.
      exists e. split; [exact He |].
      assert (Hraise : raised_at E p engine_execution e).
      { unfold prepare in Hi.
        apply bind_Return in Hi as (s & Hs & Hi).
        apply bind_Return in Hi as (m & Hm & Hi).
        apply bind_Return in Hi as (m' & Hm' & Hi).
        apply bind_Return in Hi as (i0 & Hi0 & Hi).
        exact (raised_solve _ _ _ s m m' i0 i Hs Hm Hm' Hi0 Hi Hrun). }
      split; [exact Hraise |].
      exact (core_of_Exception _ _ _ (raised_at_try_body _ _ _ _ Hraise) Hexc).
Qed.

(** C9 (amended).  When the engine reports SATISFIED or ALL_SOLUTIONS,
    [result.solution] is falsy and, in enumeration mode, the result itself
    is falsy, extraction completes with no solution; the call then returns
    that status with zero solutions and no error as soon as the solve time
    converts. *)
Theorem satisfied_without_solution_is_empty
    (E : Engine) (p : ConstraintModel) (res : Result) :
  invoke E p = Return res ->
  result_status res = SATISFIED \/ result_status res = ALL_SOLUTIONS ->
  py_bool (result_solution res) = false ->
  (all_solutions p = true -> result_bool res = false) ->
  process_results p res = Return [] /\
  forall t,
    convert_solve_time res = Return t ->
    solve_constraint_core E p =
      Return {| solutions := [];
                status := str (result_status res);
                solve_time := t;
                num_solutions := 0;
                error := None |}.
Proof.
  intros Hres Hst Hsol Hbool.
  assert (Hsols : process_results p res = Return []).
  { unfold process_results. rewrite Hsol.
    assert (Hand : all_solutions p && result_bool res = false).
    { destruct (all_solutions p); [rewrite Hbool by reflexivity |]; reflexivity. }
    rewrite Hand.
    destruct Hst as [-> | ->]; reflexivity. }
  split; [exact Hsols |].
  intros t Ht. apply core_of_Return.
  exact (try_body_complete _ _ _ _ _ Hres Hsols Ht).
Qed.

(** C10. When the engine reports OPTIMAL_SOLUTION but [result.solution] is
    [None], reading its fields raises and the call returns the handler's
    record (no solutions, status "ERROR", zero counted); no call ever
    returns status "OPTIMAL_SOLUTION" with an empty solution list. *)
Theorem optimal_without_solution_is_error (E : Engine) (p : ConstraintModel) :
  (forall res,
      invoke E p = Return res ->
      result_status res = OPTIMAL_SOLUTION ->
      result_solution res = PyNone ->
      raised_at E p solution_extraction (AttributeError PyNone "__dict__") /\
      solve_constraint_core E p =
        Return {| solutions := [];
                  status := "ERROR";
                  solve_time := 0%Q;
                  num_solutions := 0;
                  error := Some "'NoneType' object has no attribute '__dict__'" |}) /\
  (forall r,
      solve_constraint_core E p = Return r ->
      ~ (status r = "OPTIMAL_SOLUTION" /\ solutions r = [])).
Proof.
  split.
  - intros res Hres Hst Hsol.
    assert (Hraise : raised_at E p solution_extraction
                       (AttributeError PyNone "__dict__")).
    { apply (raised_extraction _ _ _ res Hres).
      rewrite (process_results_optimal _ _ Hst), Hsol. reflexivity. }
    split; [exact Hraise |].
    rewrite (core_of_Raise _ _ _ (raised_at_try_body _ _ _ _ Hraise)).
    reflexivity.
  - intros r Hr [Hst Hnil].
    destruct (optimal_status_inv E p r Hr Hst) as (res & s & _ & _ & _ & Hsols).
    congruence.
Qed.

(** ** Further properties of the extraction and of the request fields *)

(** X1. No returned solution exposes a field whose name starts with an
    underscore, in any mode and whatever the engine hands back. *)
Theorem variables_hide_private_fields
    (E : Engine) (p : ConstraintModel) (r : SolveResult)
    (s : Solution) (k : string) :
  solve_constraint_core E p = Return r ->
  In s (solutions r) ->
  String.prefix "_" k = true ->
  variables s !! k = None.
Proof.
  intros Hr Hin Hk.
  destruct (core_cases E p r Hr)
    as [(st & e & _ & _ & ->) | (res & sols & t & _ & Hsols & _ & ->)];
    simpl in Hin; [contradiction |].
  pose proof (process_results_variables _ _ _ Hsols) as Hall.
  rewrite List.Forall_forall in Hall.
  destruct (Hall s Hin) as (d & ->).
  rewrite sol_dict_lookup, Hk. reflexivity.
Qed.

(** X2. When one solution record is read (status OPTIMAL_SOLUTION, or
    SATISFIED / ALL_SOLUTIONS outside the enumeration branch), the call
    returns exactly that one solution: its public fields copied with their
    values, its private ones dropped, the objective taken from the result,
    and [is_optimal] set only under OPTIMAL_SOLUTION. *)
Theorem single_solution_copies_public_fields
    (E : Engine) (p : ConstraintModel) (res : Result)
    (d a : gmap string PyVal) (o : option Q) (t : Q) :
  invoke E p = Return res ->
  result_status res = OPTIMAL_SOLUTION \/
  ((result_status res = SATISFIED \/ result_status res = ALL_SOLUTIONS) /\
   all_solutions p && result_bool res = false) ->
  result_solution res = PyObject d a ->
  validate_objective (default PyNone (result_objective res)) = Return o ->
  convert_solve_time res = Return t ->
  solve_constraint_core E p =
    Return
      {| solutions :=
           [ {| variables := sol_dict d;
                objective := o;
                is_optimal := status_eqb (result_status res) OPTIMAL_SOLUTION |} ];
         status := str (result_status res);
         solve_time := t;
         num_solutions := 1;
         error := None |} /\
  forall k, sol_dict d !! k = if String.prefix "_" k then None else d !! k.
Proof.
  intros Hres Hbranch Hsol Ho Ht. split; [| intros k; apply sol_dict_lookup].
  apply core_of_Return.
  apply (try_body_complete _ _ _
           [ {| variables := sol_dict d; objective := o;
                is_optimal := status_eqb (result_status res) OPTIMAL_SOLUTION |} ]
           _ Hres); [| exact Ht].
  unfold process_results, make_solution. rewrite Hsol. simpl. rewrite Ho.
  destruct Hbranch as [-> | [[-> | ->] ->]]; reflexivity.
Qed.

(** X3. A completed enumeration returns one solution per record the result
    yields, in the order yielded: each carries that record's public
    fields, the record's own objective (none without one), and
    [is_optimal = false]. *)
Theorem enumeration_keeps_order
    (E : Engine) (p : ConstraintModel) (res : Result) (r : SolveResult) :
  invoke E p = Return res ->
  result_status res = SATISFIED \/ result_status res = ALL_SOLUTIONS ->
  all_solutions p = true ->
  result_bool res = true ->
  solve_constraint_core E p = Return r ->
  error r = None ->
  Forall2 extracted_from (result_items res) (solutions r) /\
  num_solutions r = Z.of_nat (length (result_items res)).
Proof.
  intros Hres Hst Hall Hbool Hr Herr.
  destruct (core_cases E p r Hr)
    as [(st & e & _ & _ & ->) | (res' & sols & t & Hres' & Hsols & _ & ->)];
    simpl in Herr |- *; [discriminate Herr |].
  assert (res' = res) as -> by congruence.
  rewrite (process_results_enumeration _ _ Hst Hall Hbool) in Hsols.
  apply bind_Return in Hsols as (acc & Hacc & Hsols).
  destruct (result_iter_raises res); [discriminate |]. injection Hsols as <-.
  apply extract_all_Forall2 in Hacc as (new & -> & Hnew). simpl.
  split; [assumption |].
  rewrite (Forall2_length _ _ _ Hnew). reflexivity.
Qed.

(** X4. An enumeration is all or nothing: if one yielded item is not a
    record with fields, the call returns the error record with no solution
    at all, whatever was extracted from the items before it. *)
Theorem enumeration_all_or_nothing
    (E : Engine) (p : ConstraintModel) (res : Result) (item : PyVal) :
  invoke E p = Return res ->
  result_status res = SATISFIED \/ result_status res = ALL_SOLUTIONS ->
  all_solutions p = true ->
  result_bool res = true ->
  In item (result_items res) ->
  (forall d a, item <> PyObject d a) ->
  exists r,
    solve_constraint_core E p = Return r /\
    status r = "ERROR" /\
    solutions r = [] /\
    num_solutions r = 0.
Proof.
  intros Hres Hst Hall Hbool Hin Hitem.
  destruct (extract_all_raises _ [] _ Hin Hitem) as [e He].
  assert (Hraise : raised_at E p solution_extraction e).
  { apply (raised_extraction _ _ _ res Hres).
    rewrite (process_results_enumeration _ _ Hst Hall Hbool), He.
    reflexivity. }
  exists (error_result e). split; [| repeat split].
  apply (core_of_Exception _ _ _ (raised_at_try_body _ _ _ _ Hraise)).
  exact (extract_all_Exception _ _ _ He).
Qed.

(** X5. An empty [data] mapping is falsy like [None]: nothing is bound to
    the instance and the call returns what the request without data
    returns. *)
Theorem empty_data_binds_nothing (E : Engine) (p : ConstraintModel) :
  (forall i, add_data E i (with_data p (Some [])) = Return i) /\
  solve_constraint_core E (with_data p (Some []))
  = solve_constraint_core E (with_data p None).
Proof.
  split; [reflexivity |].
  unfold solve_constraint_core, try_body, invoke, prepare. reflexivity.
Qed.

(** X6. A positive timeout below 86400000000000 seconds reaches the engine
    as a time limit of exactly that many seconds, and the call returns what
    the engine's answer under that limit normalizes to; from that bound on
    building the [timedelta] raises, the engine is not awaited and the call
    returns the error record. *)
Theorem positive_timeout_is_the_time_limit
    (E : Engine) (p : ConstraintModel) (t : Z) (i : InstanceT E) :
  0 < t ->
  timeout p = Some t ->
  prepare E p = Return i ->
  (t < 86400000000000 ->
   invoke E p
   = solve_async E i (all_solutions p) (Some (Timedelta (t * 1000000))) /\
   solve_constraint_core E p
   = except_Exception
       (try! result := solve_async E i (all_solutions p)
                         (Some (Timedelta (t * 1000000))) in
        normalize p result) /\
   (total_seconds (Timedelta (t * 1000000)) == inject_Z t)%Q) /\
  (86400000000000 <= t ->
   exists e,
     timedelta_of_seconds t = Raise e /\
     raised_at E p engine_execution e /\
     solve_constraint_core E p = Return (error_result e)).
Proof.
  intros Hpos Ht Hi.
  destruct (core_of_prepare _ _ _ Hi) as [Hinvoke Hcore].
  assert (Hrun : run_solve E i p =
                 try! time_limit := timedelta_of_seconds t in
                 solve_async E i (all_solutions p) (Some time_limit)).
  { unfold run_solve. rewrite Ht.
    destruct (Z.eqb_spec t 0) as [-> | _]; [lia | reflexivity]. }
  split.
  - intros Hhigh.
    rewrite timedelta_in_range in Hrun by lia. simpl in Hrun.
    rewrite Hinvoke, Hcore, Hrun. repeat split.
    unfold total_seconds, inject_Z, Qeq. simpl. lia.
  - intros Hhigh.
    destruct (timedelta_out_of_range t (or_intror Hhigh)) as (e & He & Hexc).
    rewrite He in Hrun. simpl in Hrun.
    exists e. split; [exact He |].
    assert (Hraise : raised_at E p engine_execution e).
    { unfold prepare in Hi.
      apply bind_Return in Hi as (s & Hs & Hi).
      apply bind_Return in Hi as (m & Hm & Hi).
      apply bind_Return in Hi as (m' & Hm' & Hi).
      apply bind_Return in Hi as (i0 & Hi0 & Hi).
      exact (raised_solve _ _ _ s m m' i0 i Hs Hm Hm' Hi0 Hi Hrun). }
    split; [exact Hraise |].
    exact (core_of_Exception _ _ _ (raised_at_try_body _ _ _ _ Hraise) Hexc).
Qed.

(** X8. Without [all_solutions] the result is never iterated and its
    truthiness never asked: two engines whose results differ only there
    lead to the same outcome of the call. *)
Theorem single_mode_never_iterates
    (E E' : Engine) (p : ConstraintModel) (res : Result)
    (b : bool) (items : list PyVal) (e : option PyExc) :
  all_solutions p = false ->
  invoke E p = Return res ->
  invoke E' p = Return (with_iteration res b items e) ->
  solve_constraint_core E' p = solve_constraint_core E p.
Proof.
  intros Hall Hres Hres'.
  unfold solve_constraint_core, try_body. rewrite Hres, Hres'. simpl.
  unfold normalize, process_results, convert_solve_time. simpl.
  rewrite Hall. reflexivity.
Qed.

(** X9. The solve time is converted after the solutions are extracted and
    inside the same [try]: with a 'solveTime' entry that is [None] or a
    list, whatever the call returns is the error record, and once
    extraction has completed the call does return it, so solutions already
    extracted are not returned. *)
Theorem unconvertible_solve_time_discards_solutions
    (E : Engine) (p : ConstraintModel) (res : Result)
    (stats : gmap string PyVal) (v : PyVal) :
  invoke E p = Return res ->
  result_statistics res = Some stats ->
  stats !! "solveTime" = Some v ->
  v = PyNone \/ (exists l, v = PyList l) ->
  (forall r,
      solve_constraint_core E p = Return r ->
      status r = "ERROR" /\
      solutions r = [] /\
      num_solutions r = 0 /\
      error r <> None) /\
  (forall sols,
      process_results p res = Return sols ->
      exists e,
        convert_solve_time res = Raise e /\
        solve_constraint_core E p = Return (error_result e)).
Proof.
  intros Hres Hstats Hv Hbad.
  assert (Hconv : exists e, convert_solve_time res = Raise e).
  { unfold convert_solve_time. rewrite Hstats, Hv.
    destruct Hbad as [-> | [l ->]]; simpl; eauto. }
  destruct Hconv as [e He].
  split.
  - intros r Hr.
    destruct (core_cases E p r Hr)
      as [(st & e' & _ & _ & ->) | (res' & sols & t & Hres' & _ & Ht & ->)].
    + simpl. repeat split. discriminate.
    + assert (res' = res) as -> by congruence. congruence.
  - intros sols Hsols. exists e. split; [exact He |].
    apply core_of_Exception; [| exact (convert_solve_time_Exception _ _ He)].
    unfold try_body, normalize. rewrite Hres. simpl. rewrite Hsols. simpl.
    rewrite He. reflexivity.
Qed.

(** X10. A request without [all_solutions] never gets more than one
    solution back. *)
Theorem single_mode_at_most_one_solution
    (E : Engine) (p : ConstraintModel) (r : SolveResult) :
  all_solutions p = false ->
  solve_constraint_core E p = Return r ->
  num_solutions r <= 1 /\ (length (solutions r) <= 1)%nat.
Proof.
  intros Hall Hr.
  destruct (core_cases E p r Hr)
    as [(st & e & _ & _ & ->) | (res & sols & t & _ & Hsols & _ & ->)];
    simpl; [split; lia |].
  pose proof (process_results_single _ _ _ Hall Hsols). split; lia.
Qed.

(** X11. The first parameter the engine refuses decides the call: the
    parameters before it are bound in order, those after it are never
    bound, the engine is not awaited, and the call returns the error record
    with that refusal's message. *)
Theorem first_refused_parameter_is_the_error
    (E : Engine) (p : ConstraintModel)
    (s : SolverT E) (m m' : ModelT E) (i i' : InstanceT E)
    (l1 l2 : list (string * PyVal)) (k : string) (v : PyVal) (e : PyExc) :
  lookup E (solver p) = Return s ->
  new_model E = Return m ->
  add_string E m (model p) = Return m' ->
  new_instance E s m' = Return i ->
  data p = Some (l1 ++ (k, v) :: l2) ->
  bind_data E i l1 = Return i' ->
  setitem E i' k v = Raise e ->
  is_Exception e = true ->
  raised_at E p data_binding e /\
  exists r,
    solve_constraint_core E p = Return r /\
    status r = "ERROR" /\
    error r = Some (exc_str e).
Proof.
  intros Hs Hm Hm' Hi Hdata Hl1 Hk Hexc.
  assert (Hraise : raised_at E p data_binding e).
  { apply (raised_add_data _ _ _ s m m' i Hs Hm Hm' Hi).
    unfold add_data. rewrite Hdata.
    assert (Hbind : bind_data E i (l1 ++ (k, v) :: l2) = Raise e).
    { rewrite bind_data_app_eq, Hl1. simpl. rewrite Hk. reflexivity. }
    destruct (l1 ++ (k, v) :: l2) eqn:Hl; [| exact Hbind].
    destruct l1; discriminate Hl. }
  split; [exact Hraise |].
  exists (error_result e). split; [| split; reflexivity].
  exact (core_of_Exception _ _ _ (raised_at_try_body _ _ _ _ Hraise) Hexc).
Qed.

End Core.

(** ** The claims and properties at concrete inputs *)

(** C1 (as stated, refuted).  The handler names [Exception]: when the task
    is cancelled while the engine is awaited, [CancelledError] is not
    caught and leaves [solve_constraint_core]; no record is returned. *)
Lemma failure_escapes_counterexample :
  raised_at report (scripted (Return ()) (Raise CancelledError))
    (request false (Some 1)) engine_execution CancelledError /\
  solve_constraint_core report (scripted (Return ()) (Raise CancelledError))
    (request false (Some 1)) = Raise CancelledError.
Proof.
  split; [| reflexivity].
  eapply raised_solve; reflexivity.
Qed.

Lemma failure_becomes_error_result_witness :
  solve_constraint_core report
    (scripted (Raise (mkExc "LookupError" "Solver 'nope' not found"))
              (Return (outcome UNKNOWN PyNone ∅)))
    (request false None)
  = Return {| solutions := [];
              status := "ERROR";
              solve_time := 0%Q;
              num_solutions := 0;
              error := Some "Solver 'nope' not found" |}.
Proof.
  apply (failure_becomes_error_result report _ _ solver_lookup
           (mkExc "LookupError" "Solver 'nope' not found")).
  - apply raised_lookup. reflexivity.
  - reflexivity.
Defined.

(** C2 (as stated, refuted).  An engine failure whose message is empty
    gives status "ERROR" with an empty [error]; an engine outcome whose own
    status is ERROR gives status "ERROR" with [error] absent.  Either way
    "status is ERROR iff error is non-empty" fails. *)
Lemma error_iff_nonempty_counterexample :
  (exists r,
      solve_constraint_core report
        (scripted (Return ()) (Raise (mkExc "TimeoutError" "")))
        (request false (Some 1)) = Return r /\
      ~ (status r = "ERROR" <-> exists m, error r = Some m /\ m <> "")) /\
  (exists r,
      solve_constraint_core report (answers (outcome ERROR PyNone ∅))
        (request false None) = Return r /\
      ~ (status r = "ERROR" <-> exists m, error r = Some m /\ m <> "")).
Proof.
  split; eexists; (split; [reflexivity |]);
    intros [H _]; destruct (H eq_refl) as (m & Hm & Hne); simpl in Hm.
  - injection Hm as <-. apply Hne. reflexivity.
  - discriminate Hm.
Qed.

Lemma error_present_iff_raised_witness :
  error {| solutions := []; status := "UNKNOWN"; solve_time := 0%Q;
           num_solutions := 0; error := None |} = None /\
  status (error_result (mkExc "TimeoutError" "")) = "ERROR".
Proof.
  split.
  - refine (proj1 (error_present_iff_raised report
                     (answers (outcome UNKNOWN PyNone ∅))
                     (request false None)
                     {| solutions := []; status := "UNKNOWN"; solve_time := 0%Q;
                        num_solutions := 0; error := None |}
                     _) _);
      [vm_compute; reflexivity | discriminate].
  - refine (proj1 (proj2 (proj2 (error_present_iff_raised report
                     (scripted (Return ()) (Raise (mkExc "TimeoutError" "")))
                     (request false (Some 1))
                     (error_result (mkExc "TimeoutError" ""))
                     _))) _);
      [vm_compute; reflexivity |].
    exists engine_execution, (mkExc "TimeoutError" "").
    eapply raised_solve; reflexivity.
Defined.

(** C3 (as stated, refuted).  In enumeration mode an outcome whose status
    is OPTIMAL_SOLUTION goes through the third branch, which marks its
    solution optimal without looking at [all_solutions]. *)
Lemma enumeration_never_optimal_counterexample :
  all_solutions (request true None) = true /\
  exists r,
    solve_constraint_core report
      (answers (outcome OPTIMAL_SOLUTION record_x3 ∅))
      (request true None) = Return r /\
    is_optimal <$> solutions r = [true].
Proof.
  split; [reflexivity |].
  eexists. split; [vm_compute; reflexivity | reflexivity].
Qed.

Lemma enumeration_optimal_only_under_optimal_status_witness :
  Forall (fun s => is_optimal s = false)
    (solutions
       {| solutions :=
            [ {| variables := {[ "x" := PyInt 3 ]};
                 objective := None; is_optimal := false |};
              {| variables := {[ "objective" := PyInt 7; "x" := PyInt 7 ]};
                 objective := Some (inject_Z 7); is_optimal := false |} ];
          status := "ALL_SOLUTIONS";
          solve_time := 0%Q;
          num_solutions := 2;
          error := None |}) /\
  exists s,
    solutions
      {| solutions :=
           [ {| variables := {[ "x" := PyInt 3 ]};
                objective := None; is_optimal := true |} ];
         status := "OPTIMAL_SOLUTION";
         solve_time := 0%Q;
         num_solutions := 1;
         error := None |} = [s] /\
    is_optimal s = true.
Proof.
  split.
  - refine (proj1 (enumeration_optimal_only_under_optimal_status report
                     (answers (enumeration ALL_SOLUTIONS [record_x3; record_x7]))
                     (request true None) _ _) _ _);
      [vm_compute; reflexivity | reflexivity | discriminate].
  - refine (proj2 (enumeration_optimal_only_under_optimal_status report
                     (answers (outcome OPTIMAL_SOLUTION record_x3 ∅))
                     (request true None) _ _) _);
      [vm_compute; reflexivity | reflexivity].
Defined.

Lemma optimal_status_one_optimal_solution_witness :
  exists s,
    solutions
      {| solutions :=
           [ {| variables := {[ "x" := PyInt 3 ]};
                objective := None; is_optimal := true |} ];
         status := "OPTIMAL_SOLUTION";
         solve_time := 0%Q;
         num_solutions := 1;
         error := None |} = [s] /\
    is_optimal s = true.
Proof.
  refine (optimal_status_one_optimal_solution report
            (answers (outcome OPTIMAL_SOLUTION record_x3 ∅))
            (request false None) _ _ _);
    [vm_compute; reflexivity | reflexivity].
Defined.

Lemma num_solutions_is_length_witness :
  num_solutions
    {| solutions :=
         [ {| variables := {[ "x" := PyInt 3 ]};
              objective := None; is_optimal := false |};
           {| variables := {[ "objective" := PyInt 7; "x" := PyInt 7 ]};
              objective := Some (inject_Z 7); is_optimal := false |} ];
       status := "ALL_SOLUTIONS";
       solve_time := 0%Q;
       num_solutions := 2;
       error := None |} = 2.
Proof.
  refine (num_solutions_is_length report
            (answers (enumeration ALL_SOLUTIONS [record_x3; record_x7]))
            (request true None) _ _).
  vm_compute; reflexivity.
Defined.

(** C6 (as stated, refuted).  The returned status is not always the
    literal of the engine's status: under OPTIMAL_SOLUTION with no solution
    record the call returns "ERROR"; and under UNKNOWN with a solve-time
    entry that cannot be converted it returns "ERROR" with [error] set. *)
Lemma status_passed_through_counterexample :
  (invoke (answers (outcome OPTIMAL_SOLUTION PyNone ∅)) (request false None)
   = Return (outcome OPTIMAL_SOLUTION PyNone ∅) /\
   exists r,
     solve_constraint_core report (answers (outcome OPTIMAL_SOLUTION PyNone ∅))
       (request false None) = Return r /\
     status r <> str OPTIMAL_SOLUTION) /\
  (invoke (answers (outcome UNKNOWN PyNone {[ "solveTime" := PyNone ]}))
          (request false None)
   = Return (outcome UNKNOWN PyNone {[ "solveTime" := PyNone ]}) /\
   exists r,
     solve_constraint_core report
       (answers (outcome UNKNOWN PyNone {[ "solveTime" := PyNone ]}))
       (request false None) = Return r /\
     status r <> str UNKNOWN /\
     error r <> None).
Proof.
  split; (split; [reflexivity |]); eexists;
    (split; [vm_compute; reflexivity |]);
    repeat split; discriminate.
Qed.

Lemma status_passed_through_on_completion_witness :
  solve_constraint_core report
    (answers (outcome UNBOUNDED PyNone {[ "solveTime" := PyInt 2 ]}))
    (request false None)
  = Return {| solutions := [];
              status := "UNBOUNDED";
              solve_time := inject_Z 2;
              num_solutions := 0;
              error := None |}.
Proof.
  refine (proj2 (proj2 (status_passed_through_on_completion report
                  (answers (outcome UNBOUNDED PyNone {[ "solveTime" := PyInt 2 ]}))
                  (request false None)
                  (outcome UNBOUNDED PyNone {[ "solveTime" := PyInt 2 ]})
                  eq_refl) _ _ _) (inject_Z 2) _);
    try discriminate.
  vm_compute. reflexivity.
Defined.

(** C7 (as stated, refuted).  The duration is passed on without a sign
    check: a completed outcome whose solve-time entry is a negative
    [timedelta] yields a negative [solve_time]. *)
Lemma solve_time_nonnegative_counterexample :
  exists r,
    solve_constraint_core report
      (answers (outcome SATISFIED record_x3
                  {[ "solveTime" := PyTimedelta (Timedelta (-1500000)) ]}))
      (request false None) = Return r /\
    status r = "SATISFIED" /\
    error r = None /\
    (solve_time r < 0)%Q.
Proof.
  eexists. split; [vm_compute; reflexivity |]. repeat split.
Qed.

Lemma solve_time_follows_statistics_witness :
  solve_constraint_core report
    (answers (outcome UNSATISFIABLE PyNone ∅)) (request false None)
  = Return {| solutions := []; status := "UNSATISFIABLE"; solve_time := 0%Q;
              num_solutions := 0; error := None |} /\
  solve_constraint_core report
    (answers (outcome UNSATISFIABLE PyNone
                {[ "solveTime" := PyTimedelta (Timedelta 2500000) ]}))
    (request false None)
  = Return {| solutions := []; status := "UNSATISFIABLE";
              solve_time := (2500000 # 1000000)%Q;
              num_solutions := 0; error := None |} /\
  solve_constraint_core report
    (answers (outcome UNSATISFIABLE PyNone
                {[ "solveTime" := PyInt (- 10 ^ 400) ]}))
    (request false None)
  = Return {| solutions := []; status := "ERROR"; solve_time := 0%Q;
              num_solutions := 0;
              error := Some "int too large to convert to float" |}.
Proof.
  split; [| split].
  - refine (proj1 (solve_time_follows_statistics report
                     (answers (outcome UNSATISFIABLE PyNone ∅))
                     (request false None)
                     (outcome UNSATISFIABLE PyNone ∅) []
                     eq_refl eq_refl) _).
    right. exists ∅. split; reflexivity.
  - refine (proj1 (proj1 (proj2 (solve_time_follows_statistics report
                     (answers (outcome UNSATISFIABLE PyNone
                                 {[ "solveTime" := PyTimedelta (Timedelta 2500000) ]}))
                     (request false None)
                     (outcome UNSATISFIABLE PyNone
                        {[ "solveTime" := PyTimedelta (Timedelta 2500000) ]})
                     []
                     eq_refl eq_refl))
              {[ "solveTime" := PyTimedelta (Timedelta 2500000) ]}
              (Timedelta 2500000) _ _));
      vm_compute; reflexivity.
  - refine (proj2 (proj1 (proj2 (proj2 (solve_time_follows_statistics report
                     (answers (outcome UNSATISFIABLE PyNone
                                 {[ "solveTime" := PyInt (- 10 ^ 400) ]}))
                     (request false None)
                     (outcome UNSATISFIABLE PyNone
                        {[ "solveTime" := PyInt (- 10 ^ 400) ]})
                     []
                     eq_refl eq_refl)))
              {[ "solveTime" := PyInt (- 10 ^ 400) ]}
              (- 10 ^ 400) _ _) _);
      vm_compute; reflexivity.
Defined.

(** C8 (as stated, refuted).  A negative timeout is not always passed on:
    at -100000000000000 seconds [datetime.timedelta] refuses the value, the
    engine (which would have answered UNKNOWN) is not awaited and the call
    returns the error record. *)
Lemma negative_timeout_counterexample :
  solve_constraint_core report echo_engine
    (request false (Some (-100000000000000)))
  = Return {| solutions := [];
              status := "ERROR";
              solve_time := 0%Q;
              num_solutions := 0;
              error := Some "days=-1157407408; must have magnitude <= 999999999" |}.
Proof. vm_compute. reflexivity. Qed.

Lemma timeout_tested_by_truthiness_witness :
  solve_constraint_core report echo_engine (request false (Some 0))
  = solve_constraint_core report echo_engine (request false None) /\
  solve_constraint_core report echo_engine (request false (Some (-3)))
  = Return {| solutions := [];
              status := "UNKNOWN";
              solve_time := (-3000000 # 1000000)%Q;
              num_solutions := 0;
              error := None |}.
Proof.
  split.
  - exact (proj1 (proj1 (timeout_tested_by_truthiness report
                           echo_engine (request false (Some 0))) eq_refl)).
  - rewrite (proj1 (proj2 (proj1 (proj2 (timeout_tested_by_truthiness report
                      echo_engine (request false (Some (-3))))
                    (-3) () ltac:(lia) eq_refl eq_refl) ltac:(lia)))).
    vm_compute. reflexivity.
Defined.

(** C9 (as stated, refuted).  SATISFIED with no solution record does not
    always end in a non-error record: the solve time is converted after
    the extraction, and an entry that cannot be converted sends the call
    to the handler. *)
Lemma satisfied_without_solution_counterexample :
  result_status (outcome SATISFIED PyNone {[ "solveTime" := PyNone ]}) = SATISFIED /\
  py_bool (result_solution (outcome SATISFIED PyNone {[ "solveTime" := PyNone ]})) = false /\
  result_bool (outcome SATISFIED PyNone {[ "solveTime" := PyNone ]}) = false /\
  invoke (answers (outcome SATISFIED PyNone {[ "solveTime" := PyNone ]}))
         (request false None)
  = Return (outcome SATISFIED PyNone {[ "solveTime" := PyNone ]}) /\
  solve_constraint_core report
    (answers (outcome SATISFIED PyNone {[ "solveTime" := PyNone ]}))
    (request false None)
  = Return {| solutions := [];
              status := "ERROR";
              solve_time := 0%Q;
              num_solutions := 0;
              error := Some "float() argument must be a string or a real number, not 'NoneType'" |}.
Proof. repeat split; vm_compute; reflexivity. Qed.

Lemma satisfied_without_solution_is_empty_witness :
  solve_constraint_core report
    (answers (outcome SATISFIED PyNone ∅)) (request true None)
  = Return {| solutions := [];
              status := "SATISFIED";
              solve_time := 0%Q;
              num_solutions := 0;
              error := None |}.
Proof.
  apply (proj2 (satisfied_without_solution_is_empty report
                  (answers (outcome SATISFIED PyNone ∅))
                  (request true None)
                  (outcome SATISFIED PyNone ∅)
                  eq_refl (or_introl eq_refl) eq_refl (fun _ => eq_refl))).
  reflexivity.
Defined.

Lemma optimal_without_solution_is_error_witness :
  solve_constraint_core report
    (answers (outcome OPTIMAL_SOLUTION PyNone ∅)) (request false None)
  = Return {| solutions := [];
              status := "ERROR";
              solve_time := 0%Q;
              num_solutions := 0;
              error := Some "'NoneType' object has no attribute '__dict__'" |}.
Proof.
  exact (proj2 (proj1 (optimal_without_solution_is_error report
                  (answers (outcome OPTIMAL_SOLUTION PyNone ∅))
                  (request false None))
                (outcome OPTIMAL_SOLUTION PyNone ∅)
                eq_refl eq_refl eq_refl)).
Defined.

Lemma variables_hide_private_fields_witness :
  In {| variables := {[ "x" := PyInt 3 ]}; objective := None; is_optimal := false |}
     (solutions
        {| solutions :=
             [ {| variables := {[ "x" := PyInt 3 ]};
                  objective := None; is_optimal := false |} ];
           status := "SATISFIED";
           solve_time := 0%Q;
           num_solutions := 1;
           error := None |}) /\
  variables {| variables := {[ "x" := PyInt 3 ]}; objective := None;
               is_optimal := false |} !! "_output_item" = None.
Proof.
  split; [left; reflexivity |].
  refine (variables_hide_private_fields report
            (answers (outcome SATISFIED record_x3 ∅))
            (request false None)
            {| solutions :=
                 [ {| variables := {[ "x" := PyInt 3 ]};
                      objective := None; is_optimal := false |} ];
               status := "SATISFIED";
               solve_time := 0%Q;
               num_solutions := 1;
               error := None |}
            _ "_output_item" _ _ _);
    [vm_compute; reflexivity | left; reflexivity | reflexivity].
Defined.

Lemma single_solution_copies_public_fields_witness :
  solve_constraint_core report
    (answers (outcome OPTIMAL_SOLUTION record_x7 ∅)) (request false None)
  = Return
      {| solutions :=
           [ {| variables :=
                  sol_dict (<[ "x" := PyInt 7 ]> (<[ "objective" := PyInt 7 ]> ∅));
                objective := Some (inject_Z 7);
                is_optimal := true |} ];
         status := "OPTIMAL_SOLUTION";
         solve_time := 0%Q;
         num_solutions := 1;
         error := None |}.
Proof.
  refine (proj1 (single_solution_copies_public_fields report
                   (answers (outcome OPTIMAL_SOLUTION record_x7 ∅))
                   (request false None)
                   (outcome OPTIMAL_SOLUTION record_x7 ∅)
                   (<[ "x" := PyInt 7 ]> (<[ "objective" := PyInt 7 ]> ∅))
                   (<[ "x" := PyInt 7 ]> (<[ "objective" := PyInt 7 ]> ∅))
                   (Some (inject_Z 7)) 0%Q
                   eq_refl (or_introl eq_refl) eq_refl _ eq_refl)).
  vm_compute. reflexivity.
Defined.

Lemma enumeration_keeps_order_witness :
  Forall2 (extracted_from report) [record_x3; record_x7]
    (solutions
       {| solutions :=
            [ {| variables := {[ "x" := PyInt 3 ]};
                 objective := None; is_optimal := false |};
              {| variables := {[ "objective" := PyInt 7; "x" := PyInt 7 ]};
                 objective := Some (inject_Z 7); is_optimal := false |} ];
          status := "ALL_SOLUTIONS";
          solve_time := 0%Q;
          num_solutions := 2;
          error := None |}).
Proof.
  refine (proj1 (enumeration_keeps_order report
                   (answers (enumeration ALL_SOLUTIONS [record_x3; record_x7]))
                   (request true None)
                   (enumeration ALL_SOLUTIONS [record_x3; record_x7])
                   _
                   eq_refl (or_intror eq_refl) eq_refl eq_refl _ _));
    [vm_compute; reflexivity | reflexivity].
Defined.

Lemma enumeration_all_or_nothing_witness :
  exists r,
    solve_constraint_core report
      (answers (enumeration SATISFIED [record_x3; PyInt 4; record_x7]))
      (request true None) = Return r /\
    status r = "ERROR" /\
    solutions r = [] /\
    num_solutions r = 0.
Proof.
  apply (enumeration_all_or_nothing report
           (answers (enumeration SATISFIED [record_x3; PyInt 4; record_x7]))
           (request true None)
           (enumeration SATISFIED [record_x3; PyInt 4; record_x7])
           (PyInt 4)
           eq_refl (or_introl eq_refl) eq_refl eq_refl).
  - right. left. reflexivity.
  - discriminate.
Defined.

Lemma positive_timeout_is_the_time_limit_witness :
  solve_constraint_core report echo_engine (request true (Some 2))
  = Return {| solutions := [];
              status := "UNKNOWN";
              solve_time := (2000000 # 1000000)%Q;
              num_solutions := 0;
              error := None |} /\
  exists e,
    timedelta_of_seconds 86400000000000 = Raise e /\
    raised_at report echo_engine (request true (Some 86400000000000))
      engine_execution e /\
    solve_constraint_core report echo_engine
      (request true (Some 86400000000000)) = Return (error_result e).
Proof.
  split.
  - rewrite (proj1 (proj2 (proj1 (positive_timeout_is_the_time_limit report
                      echo_engine (request true (Some 2)) 2 ()
                      ltac:(lia) eq_refl eq_refl) ltac:(lia)))).
    vm_compute. reflexivity.
  - apply (proj2 (positive_timeout_is_the_time_limit report
                    echo_engine (request true (Some 86400000000000))
                    86400000000000 ()
                    ltac:(lia) eq_refl eq_refl)).
    lia.
Defined.

Lemma single_mode_never_iterates_witness :
  solve_constraint_core report
    (answers (with_iteration (outcome SATISFIED record_x3 ∅) true [PyInt 4]
                (Some CancelledError)))
    (request false None)
  = solve_constraint_core report
      (answers (outcome SATISFIED record_x3 ∅))
      (request false None).
Proof.
  apply (single_mode_never_iterates report
           (answers (outcome SATISFIED record_x3 ∅))
           (answers (with_iteration (outcome SATISFIED record_x3 ∅) true [PyInt 4]
                       (Some CancelledError)))
           (request false None)
           (outcome SATISFIED record_x3 ∅) true [PyInt 4]
           (Some CancelledError));
    reflexivity.
Defined.

Lemma unconvertible_solve_time_discards_solutions_witness :
  exists e,
    convert_solve_time (outcome SATISFIED record_x3 {[ "solveTime" := PyNone ]})
    = Raise e /\
    solve_constraint_core report
      (answers (outcome SATISFIED record_x3 {[ "solveTime" := PyNone ]}))
      (request false None) = Return (error_result e).
Proof.
  refine (proj2 (unconvertible_solve_time_discards_solutions report
            (answers (outcome SATISFIED record_x3 {[ "solveTime" := PyNone ]}))
            (request false None)
            (outcome SATISFIED record_x3 {[ "solveTime" := PyNone ]})
            {[ "solveTime" := PyNone ]} PyNone
            eq_refl eq_refl _ (or_introl eq_refl))
          [ {| variables := {[ "x" := PyInt 3 ]};
               objective := None; is_optimal := false |} ] _);
    vm_compute; reflexivity.
Defined.

Lemma single_mode_at_most_one_solution_witness :
  num_solutions (error_result (AttributeError (PyList [record_x3; record_x7]) "__dict__"))
  <= 1 /\
  (length (solutions
             {| solutions :=
                  [ {| variables := {[ "x" := PyInt 3 ]};
                       objective := None; is_optimal := false |} ];
                status := "SATISFIED";
                solve_time := 0%Q;
                num_solutions := 1;
                error := None |}) <= 1)%nat.
Proof.
  split.
  - refine (proj1 (single_mode_at_most_one_solution report
                     (answers (enumeration ALL_SOLUTIONS [record_x3; record_x7]))
                     (request false None) _ eq_refl _)).
    vm_compute. reflexivity.
  - refine (proj2 (single_mode_at_most_one_solution report
                     (answers (outcome SATISFIED record_x3 ∅))
                     (request false None) _ eq_refl _)).
    vm_compute. reflexivity.
Defined.

Lemma first_refused_parameter_is_the_error_witness :
  exists r,
    solve_constraint_core report (picky_engine "m")
      {| model := "int: n; var 1..n: x; solve satisfy;";
         data := Some [("n", PyInt 4); ("m", PyInt 2); ("k", PyInt 1)];
         solver := "gecode";
         all_solutions := false;
         timeout := None |} = Return r /\
    status r = "ERROR" /\
    error r = Some "Undefined parameter m".
Proof.
  apply (first_refused_parameter_is_the_error report (picky_engine "m")
           {| model := "int: n; var 1..n: x; solve satisfy;";
              data := Some [("n", PyInt 4); ("m", PyInt 2); ("k", PyInt 1)];
              solver := "gecode";
              all_solutions := false;
              timeout := None |}
           () () () [] ["n"]
           [("n", PyInt 4)] [("k", PyInt 1)] "m" (PyInt 2)
           (mkExc "MiniZincError" "Undefined parameter m"));
    reflexivity.
Defined.
